(** * Slice unpacking for symbolic-integer indexing

    A shallow embedding of [torch::autograd::__PySlice_Unpack]
    (torch/csrc/autograd/python_variable_indexing.h) together with the
    parts of CPython and c10 it calls, and the properties of the slice
    normaliser checked against it. *)

From Stdlib Require Import ZArith String Bool Lia.
From ExtLib Require Import Structures.Monad.
Import MonadNotation.

Local Open Scope string_scope.
Local Open Scope Z_scope.
Local Open Scope monad_scope.

(** ** Outcomes of a C++ computation

    A call either returns a value, throws a [c10::Error] carrying its
    message (what [TORCH_CHECK] does), or has no defined meaning because
    it reads a local variable that was never written. *)

Inductive outcome (A : Type) : Type :=
| Return (a : A)
| Throw (what : string)
| Undefined.

Arguments Return {A} a.
Arguments Throw {A} what.
Arguments Undefined {A}.

Definition outcome_bind {A B : Type} (c : outcome A) (k : A -> outcome B)
  : outcome B :=
  match c with
  | Return a => k a
  | Throw what => Throw what
  | Undefined => Undefined
  end.

#[global] Instance Monad_outcome : Monad outcome :=
  {| ret := @Return; bind := @outcome_bind |}.

(** [TORCH_CHECK(cond, msg)]: throws [msg] when [cond] is false. *)
Definition TORCH_CHECK (cond : bool) (msg : string) : outcome unit :=
  if cond then ret tt else Throw msg.

(** A local [Py_ssize_t x;] declared without initialiser holds no value
    until it is written; reading it before that is undefined. *)
Definition local := option Z.

Definition uninitialized : local := None.

Definition load (x : local) : outcome Z :=
  match x with
  | Some v => ret v
  | None => Undefined
  end.

(** ** c10::SymInt *)

Module c10.

(** The node behind a deferred integer; opaque to the normaliser. *)
Inductive SymNode : Type := node (id : positive).

(** A [c10::SymInt] holds either a concrete 64-bit integer or a
    symbolic node; [SymInt_int d] is what the constructor
    [c10::SymInt(d)] builds from a platform integer. *)
Inductive SymInt : Type :=
| SymInt_int (d : Z)
| SymInt_node (n : SymNode).

Definition is_symbolic (s : SymInt) : bool :=
  match s with
  | SymInt_int _ => false
  | SymInt_node _ => true
  end.

(** [expect_int()] is only meaningful on a concrete value. *)
Definition expect_int (s : SymInt) : outcome Z :=
  match s with
  | SymInt_int d => ret d
  | SymInt_node _ => Undefined
  end.

End c10.

Import c10.

(** ** The CPython side *)

Module Py.

(** pyport.h on an LP64 platform. *)
Definition PY_SSIZE_T_MAX : Z := 2 ^ 63 - 1.
Definition PY_SSIZE_T_MIN : Z := - PY_SSIZE_T_MAX - 1.

(** The Python values a slice field can hold, by what the unpacker can
    observe of them.  [nb_index] is the outcome of the object's
    [__index__] slot: [Some z] when the slot exists and returns the
    integer [z], [None] when the type has no such slot or the call
    raises. *)
Inductive PyObject : Type :=
| Py_None
| PyLong (z : Z)
| THPSymInt (s : SymInt) (nb_index : option Z)
| PyOther (nb_index : option Z).

Record PySliceObject : Type :=
  { start : PyObject; stop : PyObject; step : PyObject }.

Definition is_None (v : PyObject) : bool :=
  match v with
  | Py_None => true
  | _ => false
  end.

(** [py::isinstance(v, torch::get_symint_class())]. *)
Definition isinstance_symint (v : PyObject) : bool :=
  match v with
  | THPSymInt _ _ => true
  | _ => false
  end.

(** [py::object::cast<c10::SymInt>()] on an instance of the SymInt
    class; the caller has checked the class. *)
Definition cast_SymInt (v : PyObject) : outcome SymInt :=
  match v with
  | THPSymInt s _ => ret s
  | _ => Undefined
  end.

(** [PyNumber_Index]: the integer an object stands for, if any. *)
Definition PyNumber_Index (v : PyObject) : option Z :=
  match v with
  | Py_None => None
  | PyLong z => Some z
  | THPSymInt _ i => i
  | PyOther i => i
  end.

(** [PyNumber_AsSsize_t(v, NULL)] clips an out-of-range integer to the
    nearest end of the [Py_ssize_t] range. *)
Definition clip (z : Z) : Z :=
  if z <? PY_SSIZE_T_MIN then PY_SSIZE_T_MIN
  else if PY_SSIZE_T_MAX <? z then PY_SSIZE_T_MAX
  else z.

(** [_PyEval_SliceIndex(v, &pi)]: returns 1 and stores the clipped
    index on success, returns 0 and leaves [pi] alone on failure;
    [None] succeeds without storing anything. *)
Definition _PyEval_SliceIndex (v : PyObject) (pi : local) : bool * local :=
  if is_None v then (true, pi)
  else
    match PyNumber_Index v with
    | Some x => (true, Some (clip x))
    | None => (false, pi)
    end.

End Py.

Import Py.

(** ** torch::autograd *)

Record UnpackedSlice : Type :=
  { start : SymInt; stop : SymInt; step : SymInt }.

(** The messages of the seven checks, in source order. *)
Definition msg_step_symint : string := "Slicing step can't be symint".
Definition msg_step_parse : string := "Failed parsing slicing step to integer".
Definition msg_step_zero : string := "Slicing step size can't be zero".
Definition msg_start_symbolic : string :=
  "Can't use symbolic step size to determine slicing start index".
Definition msg_start_parse : string :=
  "Failed parsing slicing start index to integer".
Definition msg_stop_symbolic : string :=
  "Can't use symbolic step size to determine slicing stop index".
Definition msg_stop_parse : string :=
  "Failed parsing slicing stop index to integer".

(** Lines 30-51: the step field. *)
Definition step_block (r : PySliceObject) : outcome SymInt :=
  if is_None (Py.step r) then ret (SymInt_int 1)
  else
    TORCH_CHECK (isinstance_symint (Py.step r)) msg_step_symint ;;
    let step := uninitialized in
    let (result, step) := _PyEval_SliceIndex (Py.step r) step in
    TORCH_CHECK (negb result) msg_step_parse ;;
    s <- load step ;;
    TORCH_CHECK (negb (s =? 0)) msg_step_zero ;;
    let s := if s <? - PY_SSIZE_T_MAX then - PY_SSIZE_T_MAX else s in
    ret (SymInt_int s).

(** Lines 53-67: the start field. *)
Definition start_block (r : PySliceObject) (step_sym : SymInt)
  : outcome SymInt :=
  if isinstance_symint (Py.start r) then cast_SymInt (Py.start r)
  else if is_None (Py.start r) then
    TORCH_CHECK (negb (is_symbolic step_sym)) msg_start_symbolic ;;
    s <- expect_int step_sym ;;
    ret (SymInt_int (if s <? 0 then PY_SSIZE_T_MAX else 0))
  else
    let start := uninitialized in
    let (result, start) := _PyEval_SliceIndex (Py.start r) start in
    TORCH_CHECK result msg_start_parse ;;
    s <- load start ;;
    ret (SymInt_int s).

(** Lines 69-84: the stop field. *)
Definition stop_block (r : PySliceObject) (step_sym : SymInt)
  : outcome SymInt :=
  if isinstance_symint (Py.stop r) then cast_SymInt (Py.stop r)
  else if is_None (Py.stop r) then
    TORCH_CHECK (negb (is_symbolic step_sym)) msg_stop_symbolic ;;
    s <- expect_int step_sym ;;
    ret (SymInt_int (if s <? 0 then PY_SSIZE_T_MIN else PY_SSIZE_T_MAX))
  else
    let stop := uninitialized in
    let (result, stop) := _PyEval_SliceIndex (Py.stop r) stop in
    TORCH_CHECK result msg_stop_parse ;;
    s <- load stop ;;
    ret (SymInt_int s).

(** The whole function: step first, then start, then stop. *)
Definition __PySlice_Unpack (r : PySliceObject) : outcome UnpackedSlice :=
  step_sym <- step_block r ;;
  start_sym <- start_block r step_sym ;;
  stop_sym <- stop_block r step_sym ;;
  ret {| start := start_sym; stop := stop_sym; step := step_sym |}.

(** ** The vocabulary of the specification *)

(** The error taxonomy, and the check each message belongs to. *)
Inductive ErrorKind : Type :=
| ZeroStepError
| UnsupportedSymbolicStep
| SymbolicStepDefaultError
| IndexConversionError.

Definition ErrorKind_eqb (j k : ErrorKind) : bool :=
  match j, k with
  | ZeroStepError, ZeroStepError
  | UnsupportedSymbolicStep, UnsupportedSymbolicStep
  | SymbolicStepDefaultError, SymbolicStepDefaultError
  | IndexConversionError, IndexConversionError => true
  | _, _ => false
  end.

Definition kind_of (what : string) : option ErrorKind :=
  if (what =? msg_step_symint)%string then Some UnsupportedSymbolicStep
  else if (what =? msg_step_zero)%string then Some ZeroStepError
  else if (what =? msg_step_parse)%string
          || (what =? msg_start_parse)%string
          || (what =? msg_stop_parse)%string then Some IndexConversionError
  else if (what =? msg_start_symbolic)%string
          || (what =? msg_stop_symbolic)%string then Some SymbolicStepDefaultError
  else None.

Definition fails_with {A : Type} (o : outcome A) (k : ErrorKind) : bool :=
  match o with
  | Throw what =>
      match kind_of what with
      | Some j => ErrorKind_eqb j k
      | None => false
      end
  | _ => false
  end.

(** A value with an integer index. *)
Definition convertible (v : PyObject) : bool :=
  match PyNumber_Index v with
  | Some _ => true
  | None => false
  end.

(** A field that is present, not symbolic, and has no integer index. *)
Definition unconvertible (v : PyObject) : bool :=
  negb (is_None v) && negb (isinstance_symint v) && negb (convertible v).

(** A step that gets past the class test of lines 33-35 and on which
    the index conversion fails: the one case in which line 40 reads
    [step] before anything was stored in it. *)
Definition unwritten_step (v : PyObject) : bool :=
  isinstance_symint v && negb (convertible v).

(** The three kinds of value a slice field is described with. *)
Inductive SliceField : Type :=
| Absent
| Concrete (z : Z)
| Symbolic (n : SymNode).

Definition field_of (s : SymInt) : SliceField :=
  match s with
  | SymInt_int d => Concrete d
  | SymInt_node n => Symbolic n
  end.

(** Inputs used in the examples below. *)
Definition a_node : SymInt := SymInt_node (node 1).
Definition a_float : PyObject := PyOther None.

Definition slice (a b c : PyObject) : PySliceObject :=
  {| Py.start := a; Py.stop := b; Py.step := c |}.

(** Feeding a result back in: each field as the Python object that
    stands for it, a plain integer for a concrete value and a SymInt
    instance (without integer index) for a symbolic one. *)
Definition as_object (s : SymInt) : PyObject :=
  match s with
  | SymInt_int d => PyLong d
  | SymInt_node _ => THPSymInt s None
  end.

Definition as_slice (u : UnpackedSlice) : PySliceObject :=
  slice (as_object (start u)) (as_object (stop u)) (as_object (step u)).

(** * Properties *)

(** ** The outcome monad *)

Lemma bind_Return {A B : Type} (a : A) (k : A -> outcome B) :
  bind (Return a) k = k a.
Proof. reflexivity. Qed.

Lemma bind_Throw {A B : Type} (what : string) (k : A -> outcome B) :
  bind (Throw what) k = Throw what.
Proof. reflexivity. Qed.

Lemma bind_Undefined {A B : Type} (k : A -> outcome B) :
  bind Undefined k = Undefined.
Proof. reflexivity. Qed.

Lemma bind_Return_inv {A B : Type} (c : outcome A) (k : A -> outcome B) b :
  bind c k = Return b -> exists a, c = Return a /\ k a = Return b.
Proof.
  destruct c as [a | what | ]; cbn; intros H; try discriminate.
  exists a. split; [reflexivity | exact H].
Qed.

Lemma TORCH_CHECK_pass (msg : string) : TORCH_CHECK true msg = Return tt.
Proof. reflexivity. Qed.

Lemma TORCH_CHECK_fail (msg : string) : TORCH_CHECK false msg = Throw msg.
Proof. reflexivity. Qed.

Lemma TORCH_CHECK_Return_inv cond msg u :
  TORCH_CHECK cond msg = Return u -> cond = true.
Proof. destruct cond; [reflexivity | discriminate]. Qed.

Create Rewrite HintDb outcome.

#[local] Hint Rewrite @bind_Return @bind_Throw @bind_Undefined
  TORCH_CHECK_pass TORCH_CHECK_fail : outcome.

(** Run a block as far as the known parts of its input allow. *)
Ltac run := cbn -[Z.ltb Z.eqb Z.opp PY_SSIZE_T_MAX PY_SSIZE_T_MIN clip];
            autorewrite with outcome; try reflexivity.

(** ** The platform integer range *)

(** The [static_assert] of line 26. *)
Lemma ssize_t_static_assert : PY_SSIZE_T_MIN + 1 <= - PY_SSIZE_T_MAX.
Proof. unfold PY_SSIZE_T_MIN. lia. Qed.

Lemma clip_range z : PY_SSIZE_T_MIN <= clip z <= PY_SSIZE_T_MAX.
Proof.
  unfold clip, PY_SSIZE_T_MIN, PY_SSIZE_T_MAX.
  destruct (Z.ltb_spec z (- (2 ^ 63 - 1) - 1));
    [ | destruct (Z.ltb_spec (2 ^ 63 - 1) z)]; lia.
Qed.

Lemma clip_in_range z :
  PY_SSIZE_T_MIN <= z <= PY_SSIZE_T_MAX -> clip z = z.
Proof.
  unfold clip, PY_SSIZE_T_MIN, PY_SSIZE_T_MAX. intros H.
  destruct (Z.ltb_spec z (- (2 ^ 63 - 1) - 1));
    [ | destruct (Z.ltb_spec (2 ^ 63 - 1) z)]; lia.
Qed.

(** ** The step block *)

(** An absent step is 1. *)
Lemma step_block_absent a b :
  step_block (slice a b Py_None) = Return (SymInt_int 1).
Proof. reflexivity. Qed.

(** The class test of lines 33-35 stops every step that is present and
    not an instance of the SymInt class, whatever its value. *)
Lemma step_block_not_symint r :
  is_None (Py.step r) = false ->
  isinstance_symint (Py.step r) = false ->
  step_block r = Throw msg_step_symint.
Proof.
  intros Hn Hs. unfold step_block. rewrite Hn, Hs. run.
Qed.

Lemma step_block_concrete a b z :
  step_block (slice a b (PyLong z)) = Throw msg_step_symint.
Proof. apply step_block_not_symint; reflexivity. Qed.

(** An instance of the SymInt class passes the class test.  The test of
    line 39 then throws when the index conversion succeeded; when it
    failed, line 40 reads [step], which was never written. *)
Lemma step_block_symint a b s i :
  step_block (slice a b (THPSymInt s i)) =
  match i with
  | Some _ => Throw msg_step_parse
  | None => Undefined
  end.
Proof. destruct i; reflexivity. Qed.

(** Hence the block returns on an absent step only. *)
Lemma step_block_Return_inv r st :
  step_block r = Return st -> Py.step r = Py_None /\ st = SymInt_int 1.
Proof.
  destruct r as [a b [ | z | s [x | ] | i]]; cbn; intros H;
    try discriminate.
  split; [reflexivity | congruence].
Qed.

(** Whatever the block returns is a concrete, nonzero integer that can
    be negated. *)
Lemma step_block_Return_int r st :
  step_block r = Return st ->
  exists z, st = SymInt_int z /\ z <> 0 /\
            - PY_SSIZE_T_MAX <= z <= PY_SSIZE_T_MAX.
Proof.
  unfold step_block.
  destruct (is_None (Py.step r)).
  - intros H. exists 1. split; [cbn in H; congruence | ].
    unfold PY_SSIZE_T_MAX. lia.
  - intros H.
    apply bind_Return_inv in H. destruct H as (_ & _ & H).
    destruct (_PyEval_SliceIndex (Py.step r) uninitialized)
      as [result st'] eqn:E.
    apply bind_Return_inv in H. destruct H as (_ & _ & H).
    apply bind_Return_inv in H. destruct H as (s & Hs & H).
    apply bind_Return_inv in H. destruct H as (u & Hz & H).
    apply TORCH_CHECK_Return_inv in Hz.
    apply negb_true_iff, Z.eqb_neq in Hz.
    assert (Hr : PY_SSIZE_T_MIN <= s <= PY_SSIZE_T_MAX).
    { unfold _PyEval_SliceIndex in E.
      destruct (is_None (Py.step r)).
      - inversion E; subst. discriminate.
      - destruct (PyNumber_Index (Py.step r)); inversion E; subst.
        + cbn in Hs. inversion Hs. apply clip_range.
        + discriminate. }
    exists (if s <? - PY_SSIZE_T_MAX then - PY_SSIZE_T_MAX else s).
    split; [injection H as <-; reflexivity | ].
    unfold PY_SSIZE_T_MIN, PY_SSIZE_T_MAX in *.
    destruct (Z.ltb_spec s (- (2 ^ 63 - 1))); lia.
Qed.

(** The block looks at the step field only. *)
Lemma step_block_step_only a b a' b' c :
  step_block (slice a b c) = step_block (slice a' b' c).
Proof. reflexivity. Qed.

(** ** The start and stop blocks *)

(** Case analysis shared by the two blocks, which differ in their
    messages and defaults only. *)
Ltac bound_cases v :=
  destruct v as [ | ? | ? [? | ] | [? | ]]; cbn in *;
  try discriminate; try reflexivity.

(** A symbolic start is handed over as it is, whatever the step. *)
Lemma start_block_symint b c s i st :
  start_block (slice (THPSymInt s i) b c) st = Return s.
Proof. reflexivity. Qed.

(** An absent start under a concrete step: the end of the range the
    slice begins at. *)
Lemma start_block_absent b c z :
  start_block (slice Py_None b c) (SymInt_int z) =
  Return (SymInt_int (if z <? 0 then PY_SSIZE_T_MAX else 0)).
Proof. reflexivity. Qed.

(** The guard of lines 57-59. *)
Lemma start_block_absent_symbolic b c n :
  start_block (slice Py_None b c) (SymInt_node n) = Throw msg_start_symbolic.
Proof. reflexivity. Qed.

(** A present start with an integer index is clipped to the range. *)
Lemma start_block_index r st x :
  isinstance_symint (Py.start r) = false ->
  PyNumber_Index (Py.start r) = Some x ->
  start_block r st = Return (SymInt_int (clip x)).
Proof.
  destruct r as [a b c]. bound_cases a; intros _ H; congruence.
Qed.

Lemma start_block_unconvertible r st :
  unconvertible (Py.start r) = true ->
  start_block r st = Throw msg_start_parse.
Proof. destruct r as [a b c]. unfold unconvertible. bound_cases a. Qed.

(** Under a concrete step the block returns unless the start is
    unconvertible. *)
Lemma start_block_total r z :
  unconvertible (Py.start r) = false ->
  exists s, start_block r (SymInt_int z) = Return s.
Proof.
  destruct r as [a b c]. unfold unconvertible.
  bound_cases a; intros _; eexists; reflexivity.
Qed.

Lemma stop_block_symint a c s i st :
  stop_block (slice a (THPSymInt s i) c) st = Return s.
Proof. reflexivity. Qed.

Lemma stop_block_absent a c z :
  stop_block (slice a Py_None c) (SymInt_int z) =
  Return (SymInt_int (if z <? 0 then PY_SSIZE_T_MIN else PY_SSIZE_T_MAX)).
Proof. reflexivity. Qed.

(** The guard of lines 73-75. *)
Lemma stop_block_absent_symbolic a c n :
  stop_block (slice a Py_None c) (SymInt_node n) = Throw msg_stop_symbolic.
Proof. reflexivity. Qed.

Lemma stop_block_index r st x :
  isinstance_symint (Py.stop r) = false ->
  PyNumber_Index (Py.stop r) = Some x ->
  stop_block r st = Return (SymInt_int (clip x)).
Proof.
  destruct r as [a b c]. bound_cases b; intros _ H; congruence.
Qed.

Lemma stop_block_unconvertible r st :
  unconvertible (Py.stop r) = true ->
  stop_block r st = Throw msg_stop_parse.
Proof. destruct r as [a b c]. unfold unconvertible. bound_cases b. Qed.

Lemma stop_block_total r z :
  unconvertible (Py.stop r) = false ->
  exists s, stop_block r (SymInt_int z) = Return s.
Proof.
  destruct r as [a b c]. unfold unconvertible.
  bound_cases b; intros _; eexists; reflexivity.
Qed.

(** ** The whole function *)

(** When the step block does not return, its outcome is the outcome of
    the call. *)
Lemma unpack_step_Throw r what :
  step_block r = Throw what -> __PySlice_Unpack r = Throw what.
Proof. intros H. unfold __PySlice_Unpack. rewrite H. run. Qed.

Lemma unpack_step_Undefined r :
  step_block r = Undefined -> __PySlice_Unpack r = Undefined.
Proof. intros H. unfold __PySlice_Unpack. rewrite H. run. Qed.

(** When it returns, the start block runs next, then the stop block. *)
Lemma unpack_step_Return r st :
  step_block r = Return st ->
  __PySlice_Unpack r =
  (start_sym <- start_block r st ;;
   stop_sym <- stop_block r st ;;
   ret {| start := start_sym; stop := stop_sym; step := st |}).
Proof. intros H. unfold __PySlice_Unpack. rewrite H. run. Qed.

Lemma unpack_Return_inv r u :
  __PySlice_Unpack r = Return u ->
  step_block r = Return (step u) /\
  start_block r (step u) = Return (start u) /\
  stop_block r (step u) = Return (stop u).
Proof.
  unfold __PySlice_Unpack. intros H.
  apply bind_Return_inv in H. destruct H as (st & Hst & H).
  apply bind_Return_inv in H. destruct H as (sa & Hsa & H).
  apply bind_Return_inv in H. destruct H as (sb & Hsb & H).
  injection H as <-. cbn. auto.
Qed.

(** Every concrete integer step is stopped by the class test. *)
Lemma unpack_concrete_step a b z :
  __PySlice_Unpack (slice a b (PyLong z)) = Throw msg_step_symint.
Proof. apply unpack_step_Throw, step_block_concrete. Qed.

(** No instance of the SymInt class is stopped by it. *)
Lemma unpack_symint_step a b s i :
  __PySlice_Unpack (slice a b (THPSymInt s i)) =
  match i with
  | Some _ => Throw msg_step_parse
  | None => Undefined
  end.
Proof.
  destruct i.
  - apply unpack_step_Throw. apply (step_block_symint a b s (Some z)).
  - apply unpack_step_Undefined. apply (step_block_symint a b s None).
Qed.

(** With the step left out, symbolic bounds come back unchanged. *)
Lemma unpack_symint_bounds s i t j :
  __PySlice_Unpack (slice (THPSymInt s i) (THPSymInt t j) Py_None) =
  Return {| start := s; stop := t; step := SymInt_int 1 |}.
Proof. reflexivity. Qed.

(** The messages a failing step block can carry. *)
Lemma step_block_Throw_inv r what :
  step_block r = Throw what ->
  what = msg_step_symint \/ what = msg_step_parse \/ what = msg_step_zero.
Proof.
  destruct r as [a b [ | z | s [x | ] | i]]; cbn; intros H;
    try discriminate; injection H as <-; auto.
Qed.

(** * The claims *)

(** C1.  A slice whose step is a symbolic integer is expected to fail
    with UnsupportedSymbolicStep whatever start and stop are.  The class
    test of lines 33-35 lets exactly these steps through: at
    [slice(None, None, s)] with [s] a SymInt instance the call throws
    the conversion message when [s] has an integer index, and reads
    the unwritten [step] when it has none; in neither case is the
    symbolic step reported. *)
Theorem symint_step_not_reported :
  __PySlice_Unpack (slice Py_None Py_None (THPSymInt a_node (Some 2)))
    = Throw msg_step_parse /\
  __PySlice_Unpack (slice Py_None Py_None (THPSymInt a_node None))
    = Undefined /\
  fails_with
    (__PySlice_Unpack (slice Py_None Py_None (THPSymInt a_node (Some 2))))
    UnsupportedSymbolicStep = false /\
  fails_with
    (__PySlice_Unpack (slice Py_None Py_None (THPSymInt a_node None)))
    UnsupportedSymbolicStep = false.
Proof.
  rewrite (unpack_symint_step Py_None Py_None a_node (Some 2)).
  rewrite (unpack_symint_step Py_None Py_None a_node None).
  repeat split.
Qed.

(** C2.  A present, non-symbolic start, stop or step that cannot be
    converted is expected to fail with IndexConversionError.  Start and
    stop do ([TORCH_CHECK(result, ...)], lines 65 and 82): at
    [slice(1.5, None, None)] the start message is thrown.  The step does
    not: at [slice(None, None, 1.5)] the class test of lines 33-35
    throws its own message before the conversion of line 38 is tried,
    and so it does at [slice(1.5, None, 2)], where the step is a plain
    integer and the start is never converted. *)
Theorem unconvertible_step_not_reported :
  unconvertible a_float = true /\
  fails_with (__PySlice_Unpack (slice a_float Py_None Py_None))
    IndexConversionError = true /\
  __PySlice_Unpack (slice Py_None Py_None a_float) = Throw msg_step_symint /\
  fails_with (__PySlice_Unpack (slice Py_None Py_None a_float))
    IndexConversionError = false /\
  __PySlice_Unpack (slice a_float Py_None (PyLong 2)) = Throw msg_step_symint /\
  fails_with (__PySlice_Unpack (slice a_float Py_None (PyLong 2)))
    IndexConversionError = false.
Proof.
  rewrite (unpack_concrete_step a_float Py_None 2).
  rewrite (unpack_step_Throw (slice Py_None Py_None a_float) msg_step_symint
             (step_block_not_symint (slice Py_None Py_None a_float)
                eq_refl eq_refl)).
  repeat split.
Qed.

(** C3.  A step that converts to 0 is expected to fail with
    ZeroStepError.  At [slice(None, None, 0)] the class test of lines
    33-35 throws before the zero test of line 40 is reached. *)
Theorem zero_step_not_reported :
  __PySlice_Unpack (slice Py_None Py_None (PyLong 0)) = Throw msg_step_symint /\
  fails_with (__PySlice_Unpack (slice Py_None Py_None (PyLong 0)))
    ZeroStepError = false.
Proof.
  rewrite (unpack_concrete_step Py_None Py_None 0). split; reflexivity.
Qed.

(** C4.  [slice(None, None, None)] is resolved to [(0, MAX, 1)] as
    expected, but [slice(None, None, -1)], expected to give
    [(MAX, MIN, -1)], is stopped by the class test of lines 33-35. *)
Theorem negative_step_defaults_not_reached :
  __PySlice_Unpack (slice Py_None Py_None Py_None) =
    Return {| start := SymInt_int 0;
              stop := SymInt_int PY_SSIZE_T_MAX;
              step := SymInt_int 1 |} /\
  __PySlice_Unpack (slice Py_None Py_None (PyLong (-1))) =
    Throw msg_step_symint.
Proof.
  split; [reflexivity | apply unpack_concrete_step].
Qed.

(** C5.  A step equal to the most negative platform integer is expected
    to come back as [-MAX].  At [slice(None, None, MIN)] the class test
    of lines 33-35 throws, and the clamp of lines 47-49 is not
    reached. *)
Theorem min_step_not_clamped :
  PY_SSIZE_T_MIN = - PY_SSIZE_T_MAX - 1 /\
  __PySlice_Unpack (slice Py_None Py_None (PyLong PY_SSIZE_T_MIN)) =
    Throw msg_step_symint.
Proof.
  split; [reflexivity | apply unpack_concrete_step].
Qed.

(** C6, as stated, fails: an absent start and stop with a symbolic step
    do not make the call fail with SymbolicStepDefaultError.  The step
    block has already ended the call, with the conversion message when
    the SymInt instance has an integer index and undefined when it has
    none. *)
Lemma symbolic_step_default_counterexample :
  __PySlice_Unpack (slice Py_None Py_None (THPSymInt a_node (Some 2)))
    = Throw msg_step_parse /\
  fails_with
    (__PySlice_Unpack (slice Py_None Py_None (THPSymInt a_node (Some 2))))
    SymbolicStepDefaultError = false /\
  fails_with
    (__PySlice_Unpack (slice Py_None Py_None (THPSymInt a_node None)))
    SymbolicStepDefaultError = false.
Proof. repeat split. Qed.

(** C6, amended.  The guards of lines 57-59 and 73-75 reject an absent
    start or stop when the step value handed to them is symbolic; the
    step block only ever hands over a concrete integer, so no call
    fails with SymbolicStepDefaultError. *)
Theorem symbolic_step_default_unreachable :
  (forall b c n,
      start_block (slice Py_None b c) (SymInt_node n)
      = Throw msg_start_symbolic) /\
  (forall a c n,
      stop_block (slice a Py_None c) (SymInt_node n)
      = Throw msg_stop_symbolic) /\
  (forall r,
      match step_block r with
      | Return st => is_symbolic st = false
      | _ => True
      end) /\
  (forall r,
      fails_with (__PySlice_Unpack r) SymbolicStepDefaultError = false).
Proof.
  split; [ | split; [ | split]].
  - intros. apply start_block_absent_symbolic.
  - intros. apply stop_block_absent_symbolic.
  - intros r. destruct (step_block r) as [st | what | ] eqn:E; trivial.
    destruct (step_block_Return_int r _ E) as (z & -> & _). reflexivity.
  - intros r. destruct (step_block r) as [st | what | ] eqn:E.
    + destruct (step_block_Return_int r _ E) as (z & -> & _).
      rewrite (unpack_step_Return r _ E).
      destruct r as [a b c].
      bound_cases a; bound_cases b.
    + rewrite (unpack_step_Throw r _ E).
      destruct (step_block_Throw_inv r _ E) as [-> | [-> | ->]]; reflexivity.
    + rewrite (unpack_step_Undefined r E). reflexivity.
Qed.

(** C7.  Symbolic bounds with a valid nonzero concrete step are expected
    to come back unchanged with that step.  At [slice(s, t, 2)] the
    class test of lines 33-35 throws; only with the step left out do the
    symbolic bounds pass through. *)
Theorem symbolic_bounds_concrete_step_rejected :
  __PySlice_Unpack
    (slice (THPSymInt a_node None) (THPSymInt (SymInt_node (node 2)) None)
           (PyLong 2))
    = Throw msg_step_symint /\
  __PySlice_Unpack
    (slice (THPSymInt a_node None) (THPSymInt (SymInt_node (node 2)) None)
           Py_None)
    = Return {| start := a_node; stop := SymInt_node (node 2);
                step := SymInt_int 1 |}.
Proof.
  split; [apply unpack_concrete_step | apply unpack_symint_bounds].
Qed.

(** C8.  Unpacking an all-concrete triple with nonzero step is expected
    to return it unchanged.  At [slice(0, 10, 1)] the class test of
    lines 33-35 throws, and so it does when the result of unpacking
    [slice(None, None, None)] is fed back in. *)
Theorem concrete_triple_rejected :
  __PySlice_Unpack (slice (PyLong 0) (PyLong 10) (PyLong 1))
    = Throw msg_step_symint /\
  __PySlice_Unpack
    (as_slice {| start := SymInt_int 0;
                 stop := SymInt_int PY_SSIZE_T_MAX;
                 step := SymInt_int 1 |})
    = Throw msg_step_symint.
Proof.
  split; [apply unpack_concrete_step | reflexivity].
Qed.

(** C9.  Whenever the call returns, no field of the result is absent,
    the step is not the concrete value 0, and it is the concrete value
    1 when the input step was absent. *)
Theorem unpack_output_invariant r u :
  __PySlice_Unpack r = Return u ->
  (field_of (start u) <> Absent /\
   field_of (stop u) <> Absent /\
   field_of (step u) <> Absent) /\
  step u <> SymInt_int 0 /\
  (Py.step r = Py_None -> step u = SymInt_int 1).
Proof.
  intros H. apply unpack_Return_inv in H. destruct H as (Hst & _ & _).
  split; [ | split].
  - repeat split.
    + destruct (start u); discriminate.
    + destruct (stop u); discriminate.
    + destruct (step u); discriminate.
  - destruct (step_block_Return_int r _ Hst) as (z & E & Hz & _).
    rewrite E. intros F. injection F as F. contradiction.
  - intros Hn. unfold step_block in Hst. rewrite Hn in Hst.
    cbn in Hst. congruence.
Qed.

Lemma unpack_output_invariant_witness :
  __PySlice_Unpack (slice (THPSymInt a_node None) Py_None Py_None) =
    Return {| start := a_node;
              stop := SymInt_int PY_SSIZE_T_MAX;
              step := SymInt_int 1 |} /\
  SymInt_int 1 <> SymInt_int 0.
Proof.
  split; [reflexivity | ].
  exact (proj1 (proj2
    (unpack_output_invariant
       (slice (THPSymInt a_node None) Py_None Py_None)
       {| start := a_node;
          stop := SymInt_int PY_SSIZE_T_MAX;
          step := SymInt_int 1 |}
       eq_refl))).
Defined.

(** C10.  When the step and a bound are both invalid the step error is
    expected, with start and stop left alone.  At [slice(1.5, 1.5, 0)]
    the step message is thrown.  At [slice(1.5, 1.5, s)], with [s] an
    instance of the SymInt class without integer index, the step is
    invalid as well, but it passes the tests of lines 33-35 and 39, and
    line 40 reads [step] before anything was stored in it: the step
    block throws nothing, and no step error is reported. *)
Theorem invalid_step_not_reported :
  __PySlice_Unpack (slice a_float a_float (PyLong 0)) = Throw msg_step_symint /\
  step_block (slice a_float a_float (THPSymInt a_node None)) = Undefined /\
  __PySlice_Unpack (slice a_float a_float (THPSymInt a_node None))
    = Undefined /\
  fails_with (__PySlice_Unpack (slice a_float a_float (THPSymInt a_node None)))
    UnsupportedSymbolicStep = false /\
  fails_with (__PySlice_Unpack (slice a_float a_float (THPSymInt a_node None)))
    IndexConversionError = false /\
  fails_with (__PySlice_Unpack (slice a_float a_float (THPSymInt a_node None)))
    ZeroStepError = false.
Proof.
  rewrite (unpack_concrete_step a_float a_float 0).
  rewrite (unpack_symint_step a_float a_float a_node None).
  rewrite (step_block_symint a_float a_float a_node None).
  repeat split.
Qed.

(** * Further properties of the unpacker *)

(** The outcome of a call, by the step field first and the two bounds
    next. *)
Lemma unpack_cases r :
  match Py.step r with
  | Py_None =>
      if unconvertible (Py.start r)
      then __PySlice_Unpack r = Throw msg_start_parse
      else if unconvertible (Py.stop r)
           then __PySlice_Unpack r = Throw msg_stop_parse
           else exists u, __PySlice_Unpack r = Return u
  | THPSymInt _ (Some _) => __PySlice_Unpack r = Throw msg_step_parse
  | THPSymInt _ None => __PySlice_Unpack r = Undefined
  | _ => __PySlice_Unpack r = Throw msg_step_symint
  end.
Proof.
  destruct r as [a b c].
  destruct c as [ | z | s [x | ] | i]; cbn [Py.step].
  - assert (E : step_block (slice a b Py_None) = Return (SymInt_int 1))
      by reflexivity.
    change {| Py.start := a; Py.stop := b; Py.step := Py_None |}
      with (slice a b Py_None).
    rewrite (unpack_step_Return _ _ E).
    destruct (unconvertible (Py.start (slice a b Py_None))) eqn:Ha;
      cbv beta iota.
    + rewrite (start_block_unconvertible (slice a b Py_None) _ Ha).
      reflexivity.
    + destruct (start_block_total (slice a b Py_None) 1 Ha) as (sa & Ea).
      destruct (unconvertible (Py.stop (slice a b Py_None))) eqn:Hb;
        cbv beta iota; rewrite Ea; run.
      * rewrite (stop_block_unconvertible (slice a b Py_None) _ Hb).
        reflexivity.
      * destruct (stop_block_total (slice a b Py_None) 1 Hb) as (sb & ->).
        run. eexists. reflexivity.
  - apply unpack_concrete_step.
  - apply (unpack_symint_step a b s (Some x)).
  - apply (unpack_symint_step a b s None).
  - apply unpack_step_Throw. apply step_block_not_symint; reflexivity.
Qed.

(** X1.  The call returns exactly when the step is left out and neither
    bound is a present, non-symbolic value without integer index. *)
Theorem unpack_returns_iff r :
  (exists u, __PySlice_Unpack r = Return u) <->
  Py.step r = Py_None /\
  unconvertible (Py.start r) = false /\
  unconvertible (Py.stop r) = false.
Proof.
  pose proof (unpack_cases r) as C. split.
  - intros (u & Hu). rewrite Hu in C.
    destruct (Py.step r) as [ | z | s [x | ] | i]; try discriminate.
    destruct (unconvertible (Py.start r)); [discriminate | ].
    destruct (unconvertible (Py.stop r)); [discriminate | ].
    auto.
  - intros (Hc & Ha & Hb). rewrite Hc, Ha, Hb in C. exact C.
Qed.

(** X2.  Unless the step is one that makes line 40 read the unwritten
    local, whatever the call returns has step 1: the step was left out,
    and no step given by the caller reaches the result. *)
Theorem unpack_returns_unit_step r u :
  unwritten_step (Py.step r) = false ->
  __PySlice_Unpack r = Return u ->
  Py.step r = Py_None /\ step u = SymInt_int 1.
Proof.
  intros Hw H. pose proof (unpack_cases r) as C. rewrite H in C.
  apply unpack_Return_inv in H. destruct H as (Hst & _ & _).
  unfold step_block in Hst.
  destruct (Py.step r) as [ | z | s [x | ] | i]; cbn in Hw;
    try discriminate Hw; try discriminate C.
  split; [reflexivity | ]. cbn in Hst. congruence.
Qed.

Lemma unpack_returns_unit_step_witness :
  __PySlice_Unpack (slice (PyLong 3) (PyLong 9) Py_None) =
    Return {| start := SymInt_int 3; stop := SymInt_int 9;
              step := SymInt_int 1 |} /\
  Py.step (slice (PyLong 3) (PyLong 9) Py_None) = Py_None /\
  SymInt_int 1 = SymInt_int 1.
Proof.
  split; [reflexivity | ].
  exact (unpack_returns_unit_step
           (slice (PyLong 3) (PyLong 9) Py_None)
           {| start := SymInt_int 3; stop := SymInt_int 9;
              step := SymInt_int 1 |}
           eq_refl eq_refl).
Defined.

(** X3.  Each bound of a result is either the symbolic integer the
    caller passed, handed over as it is, or a concrete integer within
    the platform range. *)
Theorem unpack_bounds_resolved r u :
  __PySlice_Unpack r = Return u ->
  (if isinstance_symint (Py.start r)
   then cast_SymInt (Py.start r) = Return (start u)
   else exists z, start u = SymInt_int z /\
                  PY_SSIZE_T_MIN <= z <= PY_SSIZE_T_MAX) /\
  (if isinstance_symint (Py.stop r)
   then cast_SymInt (Py.stop r) = Return (stop u)
   else exists z, stop u = SymInt_int z /\
                  PY_SSIZE_T_MIN <= z <= PY_SSIZE_T_MAX).
Proof.
  intros H. apply unpack_Return_inv in H. destruct H as (Hst & Ha & Hb).
  apply step_block_Return_inv in Hst. destruct Hst as (_ & Hst).
  rewrite Hst in Ha, Hb. clear Hst.
  destruct r as [a b c]. split.
  - destruct a as [ | z | s i | [x | ]]; cbn in Ha |- *;
      try discriminate; try exact Ha; injection Ha as <-;
      eexists; (split; [reflexivity | ]);
      try apply clip_range; unfold PY_SSIZE_T_MIN, PY_SSIZE_T_MAX; lia.
  - destruct b as [ | z | s i | [x | ]]; cbn in Hb |- *;
      try discriminate; try exact Hb; injection Hb as <-;
      eexists; (split; [reflexivity | ]);
      try apply clip_range; unfold PY_SSIZE_T_MIN, PY_SSIZE_T_MAX; lia.
Qed.

Lemma unpack_bounds_resolved_witness :
  __PySlice_Unpack (slice (THPSymInt a_node None) (PyLong (2 ^ 70)) Py_None) =
    Return {| start := a_node; stop := SymInt_int PY_SSIZE_T_MAX;
              step := SymInt_int 1 |} /\
  cast_SymInt (THPSymInt a_node None) = Return a_node /\
  exists z, SymInt_int PY_SSIZE_T_MAX = SymInt_int z /\
            PY_SSIZE_T_MIN <= z <= PY_SSIZE_T_MAX.
Proof.
  split; [reflexivity | ].
  exact (unpack_bounds_resolved
           (slice (THPSymInt a_node None) (PyLong (2 ^ 70)) Py_None)
           {| start := a_node; stop := SymInt_int PY_SSIZE_T_MAX;
              step := SymInt_int 1 |}
           eq_refl).
Defined.

(** X4.  With the step left out, integer bounds within the platform
    range come back unchanged, with step 1. *)
Theorem unpack_concrete_bounds_unchanged a b :
  PY_SSIZE_T_MIN <= a <= PY_SSIZE_T_MAX ->
  PY_SSIZE_T_MIN <= b <= PY_SSIZE_T_MAX ->
  __PySlice_Unpack (slice (PyLong a) (PyLong b) Py_None) =
  Return {| start := SymInt_int a; stop := SymInt_int b;
            step := SymInt_int 1 |}.
Proof.
  intros Ha Hb.
  rewrite (unpack_step_Return _ _ (step_block_absent (PyLong a) (PyLong b))).
  rewrite (start_block_index (slice (PyLong a) (PyLong b) Py_None)
             (SymInt_int 1) a eq_refl eq_refl).
  rewrite (stop_block_index (slice (PyLong a) (PyLong b) Py_None)
             (SymInt_int 1) b eq_refl eq_refl).
  run. rewrite (clip_in_range a Ha), (clip_in_range b Hb). reflexivity.
Qed.

Lemma unpack_concrete_bounds_unchanged_witness :
  __PySlice_Unpack (slice (PyLong (-4)) (PyLong 12) Py_None) =
  Return {| start := SymInt_int (-4); stop := SymInt_int 12;
            step := SymInt_int 1 |}.
Proof.
  apply (unpack_concrete_bounds_unchanged (-4) 12);
    unfold PY_SSIZE_T_MIN, PY_SSIZE_T_MAX; lia.
Defined.

(** X5.  Unless the step is one that makes line 40 read the unwritten
    local, a call throws one of four messages only; the zero-step
    message and the two symbolic-step messages are not among them. *)
Theorem unpack_thrown_messages r what :
  unwritten_step (Py.step r) = false ->
  __PySlice_Unpack r = Throw what ->
  (what = msg_step_symint \/ what = msg_step_parse \/
   what = msg_start_parse \/ what = msg_stop_parse) /\
  what <> msg_step_zero /\
  what <> msg_start_symbolic /\
  what <> msg_stop_symbolic.
Proof.
  intros Hw H. pose proof (unpack_cases r) as C. rewrite H in C.
  assert (K : what = msg_step_symint \/ what = msg_step_parse \/
              what = msg_start_parse \/ what = msg_stop_parse).
  { destruct (Py.step r) as [ | z | s [x | ] | i]; cbn in Hw;
      try discriminate Hw; try (injection C as ->; auto).
    destruct (unconvertible (Py.start r)); [injection C as ->; auto | ].
    destruct (unconvertible (Py.stop r)); [injection C as ->; auto | ].
    destruct C as (u & C). discriminate. }
  split; [exact K | ].
  destruct K as [-> | [-> | [-> | ->]]]; repeat split; discriminate.
Qed.

Lemma unpack_thrown_messages_witness :
  __PySlice_Unpack (slice (PyLong 0) a_float Py_None) = Throw msg_stop_parse /\
  msg_stop_parse <> msg_step_zero.
Proof.
  split; [reflexivity | ].
  exact (proj1 (proj2
    (unpack_thrown_messages
       (slice (PyLong 0) a_float Py_None) msg_stop_parse
       eq_refl eq_refl))).
Defined.

(** X6.  A call reads an unwritten local exactly when the step is an
    instance of the SymInt class without integer index; the start and
    stop blocks never do. *)
Theorem unpack_Undefined_iff r :
  __PySlice_Unpack r = Undefined <->
  exists s, Py.step r = THPSymInt s None.
Proof.
  pose proof (unpack_cases r) as C. split.
  - intros H. rewrite H in C.
    destruct (Py.step r) as [ | z | s [x | ] | i]; try discriminate.
    + destruct (unconvertible (Py.start r)); [discriminate | ].
      destruct (unconvertible (Py.stop r)); [discriminate | ].
      destruct C as (u & C). discriminate.
    + exists s. reflexivity.
  - intros (s & E). rewrite E in C. exact C.
Qed.

(** X7.  Unless the step is one that makes line 40 read the unwritten
    local: of two bounds without integer index the start is the one
    reported.  The start message is thrown exactly when the step is left
    out and the start is unconvertible, the stop message exactly when
    the step is left out, the start is acceptable and the stop is
    unconvertible. *)
Theorem start_error_before_stop r :
  unwritten_step (Py.step r) = false ->
  (__PySlice_Unpack r = Throw msg_start_parse <->
   Py.step r = Py_None /\ unconvertible (Py.start r) = true) /\
  (__PySlice_Unpack r = Throw msg_stop_parse <->
   Py.step r = Py_None /\ unconvertible (Py.start r) = false /\
   unconvertible (Py.stop r) = true).
Proof.
  intros Hw. pose proof (unpack_cases r) as C. split; split.
  - intros H. rewrite H in C.
    destruct (Py.step r) as [ | z | s [x | ] | i]; cbn in Hw;
      try discriminate Hw; try discriminate C.
    destruct (unconvertible (Py.start r)); [auto | ].
    destruct (unconvertible (Py.stop r)); [discriminate | ].
    destruct C as (u & C). discriminate.
  - intros (Hc & Ha). rewrite Hc, Ha in C. exact C.
  - intros H. rewrite H in C.
    destruct (Py.step r) as [ | z | s [x | ] | i]; cbn in Hw;
      try discriminate Hw; try discriminate C.
    destruct (unconvertible (Py.start r)); [discriminate | ].
    destruct (unconvertible (Py.stop r)); [auto | ].
    destruct C as (u & C). discriminate.
  - intros (Hc & Ha & Hb). rewrite Hc, Ha, Hb in C. exact C.
Qed.

Lemma start_error_before_stop_witness :
  unwritten_step (Py.step (slice a_float a_float Py_None)) = false /\
  __PySlice_Unpack (slice a_float a_float Py_None) = Throw msg_start_parse.
Proof.
  split; [reflexivity | ].
  exact (proj2 (proj1
    (start_error_before_stop (slice a_float a_float Py_None) eq_refl))
    (conj eq_refl eq_refl)).
Defined.

(** X8.  A bound that is an instance of the SymInt class is never
    converted: its integer index, if it has one, does not bear on the
    outcome of the call, whatever the other bound and the step are. *)
Theorem symint_bound_index_ignored s i i' a b c :
  __PySlice_Unpack (slice (THPSymInt s i) b c) =
  __PySlice_Unpack (slice (THPSymInt s i') b c) /\
  __PySlice_Unpack (slice a (THPSymInt s i) c) =
  __PySlice_Unpack (slice a (THPSymInt s i') c).
Proof.
  unfold __PySlice_Unpack. split.
  - rewrite (step_block_step_only (THPSymInt s i) b (THPSymInt s i') b c).
    destruct (step_block (slice (THPSymInt s i') b c))
      as [st | what | ]; reflexivity.
  - rewrite (step_block_step_only a (THPSymInt s i) a (THPSymInt s i') c).
    destruct (step_block (slice a (THPSymInt s i') c))
      as [st | what | ]; reflexivity.
Qed.

(** X9.  Unless the step is one that makes line 40 read the unwritten
    local, in every result an absent start has become 0 and an absent
    stop the largest platform integer: the defaults of a negative step
    are not produced. *)
Theorem absent_bounds_defaults r u :
  unwritten_step (Py.step r) = false ->
  __PySlice_Unpack r = Return u ->
  (Py.start r = Py_None -> start u = SymInt_int 0) /\
  (Py.stop r = Py_None -> stop u = SymInt_int PY_SSIZE_T_MAX).
Proof.
  intros Hw H. pose proof (unpack_cases r) as C. rewrite H in C.
  apply unpack_Return_inv in H. destruct H as (Hst & Ha & Hb).
  unfold step_block in Hst.
  destruct r as [a b c]. cbn [Py.start Py.stop Py.step] in *.
  destruct c as [ | z | s [x | ] | i]; cbn in Hw;
    try discriminate Hw; try discriminate C.
  cbn in Hst. injection Hst as Hst. rewrite <- Hst in Ha, Hb.
  split; intros ->.
  - change (start_block (slice Py_None b Py_None) (SymInt_int 1)
            = Return (start u)) in Ha.
    rewrite (start_block_absent b Py_None 1) in Ha.
    injection Ha as <-. reflexivity.
  - change (stop_block (slice a Py_None Py_None) (SymInt_int 1)
            = Return (stop u)) in Hb.
    rewrite (stop_block_absent a Py_None 1) in Hb.
    injection Hb as <-. reflexivity.
Qed.

Lemma absent_bounds_defaults_witness :
  __PySlice_Unpack (slice Py_None Py_None Py_None) =
    Return {| start := SymInt_int 0; stop := SymInt_int PY_SSIZE_T_MAX;
              step := SymInt_int 1 |} /\
  SymInt_int 0 = SymInt_int 0 /\
  SymInt_int PY_SSIZE_T_MAX = SymInt_int PY_SSIZE_T_MAX.
Proof.
  split; [reflexivity | ].
  destruct (absent_bounds_defaults
              (slice Py_None Py_None Py_None)
              {| start := SymInt_int 0; stop := SymInt_int PY_SSIZE_T_MAX;
                 step := SymInt_int 1 |}
              eq_refl eq_refl) as (Ha & Hb).
  split; [exact (Ha eq_refl) | exact (Hb eq_refl)].
Defined.

(** X10.  The two step messages: the class message is thrown exactly
    when the step is present and not an instance of the SymInt class,
    whatever its value; the conversion message exactly when the step is
    such an instance and has an integer index. *)
Theorem step_messages_iff r :
  (__PySlice_Unpack r = Throw msg_step_symint <->
   is_None (Py.step r) = false /\ isinstance_symint (Py.step r) = false) /\
  (__PySlice_Unpack r = Throw msg_step_parse <->
   exists s x, Py.step r = THPSymInt s (Some x)).
Proof.
  pose proof (unpack_cases r) as C. split; split.
  - intros H. rewrite H in C.
    destruct (Py.step r) as [ | z | s [x | ] | i]; try discriminate;
      [ | auto | auto].
    destruct (unconvertible (Py.start r)); [discriminate | ].
    destruct (unconvertible (Py.stop r)); [discriminate | ].
    destruct C as (u & C). discriminate.
  - intros (Hn & Hs).
    destruct (Py.step r) as [ | z | s [x | ] | i]; try discriminate;
      exact C.
  - intros H. rewrite H in C.
    destruct (Py.step r) as [ | z | s [x | ] | i]; try discriminate.
    + destruct (unconvertible (Py.start r)); [discriminate | ].
      destruct (unconvertible (Py.stop r)); [discriminate | ].
      destruct C as (u & C). discriminate.
    + exists s, x. reflexivity.
  - intros (s & x & E). rewrite E in C. exact C.
Qed.
